(** * The Colt build launcher ([scripts/build_colt.py])

  A shallow embedding of the launcher script: the Python string and
  path operations it relies on, the script itself as a program over
  the operating-system operations it performs, an interpreter for
  those operations over an explicit process state, and the
  properties of its runs. *)

From Stdlib Require Import String Ascii List ZArith Bool Arith Lia.
Import ListNotations.

Local Open Scope string_scope.

(** ** Python strings *)

Module PyStr.

(** [s.endswith(suffix)]: the last [len(suffix)] characters of [s]
    are compared with [suffix]; a suffix longer than [s] never
    matches. *)
Definition endswith (s suffix : string) : bool :=
  let n := String.length s in
  let k := String.length suffix in
  (k <=? n)%nat && String.eqb (substring (n - k) k s) suffix.

(** [sep.join(parts)]. *)
Definition join (sep : string) (parts : list string) : string :=
  String.concat sep parts.

(** [s.split(sep)] for a one-character separator: never the empty
    list, [""] splits to [[""]]. *)
Fixpoint split (sep : ascii) (s : string) : list string :=
  match s with
  | EmptyString => [EmptyString]
  | String c r =>
      if Ascii.eqb c sep then EmptyString :: split sep r
      else match split sep r with
           | h :: t => String c h :: t
           | [] => [String c EmptyString]
           end
  end.

(** The line feed that [print] appends and that ["\n"] denotes. *)
Definition nl : string := String (ascii_of_nat 10) EmptyString.

End PyStr.

(** ** POSIX paths *)

Module Path.

Definition sep : ascii := "/"%char.

(** One trailing separator is not part of the name of a directory. *)
Definition strip_trailing_sep (p : string) : string :=
  if PyStr.endswith p "/" then substring 0 (String.length p - 1) p else p.

Definition segments (p : string) : list string :=
  PyStr.split sep (strip_trailing_sep p).

(** The final path segment: the name of the directory. *)
Definition final_segment (p : string) : string :=
  last (segments p) EmptyString.

(** The directory that [..] names from the directory [p]: [p] without
    its final segment, the root being its own parent. *)
Definition parent (p : string) : string :=
  match PyStr.join "/" (removelast (segments p)) with
  | EmptyString => "/"
  | q => q
  end.

Definition is_absolute (p : string) : bool :=
  match p with
  | String c _ => Ascii.eqb c sep
  | EmptyString => false
  end.

(** Where [chdir(arg)] leads from the directory [cwd]. *)
Definition resolve (cwd arg : string) : string :=
  if String.eqb arg ".." then parent cwd
  else if String.eqb arg "." then cwd
  else if is_absolute arg then arg
  else if PyStr.endswith cwd "/" then cwd ++ arg
  else cwd ++ "/" ++ arg.

End Path.

(** ** The operations the script performs *)

(** How the child process started by [os.system] ended. *)
Inductive child_outcome : Type :=
| Exited (status : Z)
| Signaled (signal : positive).

(** [os.system] returns the wait status of the child (POSIX): the
    exit status in the high byte, the number of the killing signal in
    the low one. It is 0 for exit status 0 only. *)
Definition wait_status (o : child_outcome) : Z :=
  match o with
  | Exited status => Z.shiftl status 8
  | Signaled signal => Z.pos signal
  end.

Inductive effect : Type -> Type :=
| Getcwd : effect string
| Chdir (path : string) : effect unit
| Print (args : list string) : effect unit
| ImportFrom (module name : string) : effect unit
| GenerateProject : effect Z
| System (command : string) : effect Z
| Input (prompt : string) : effect string.

(** A script: it ends normally, raises [SystemExit] through [exit], or
    performs an operation and goes on with its result. *)
Inductive prog (A : Type) : Type :=
| Ret (a : A)
| Exit (code : Z)
| Vis {X : Type} (e : effect X) (k : X -> prog A).

Arguments Ret {A} a.
Arguments Exit {A} code.
Arguments Vis {A X} e k.

Fixpoint bind {A B : Type} (p : prog A) (f : A -> prog B) : prog B :=
  match p with
  | Ret a => f a
  | Exit code => Exit code
  | Vis e k => Vis e (fun x => bind (k x) f)
  end.

Definition trigger {X : Type} (e : effect X) : prog X := Vis e Ret.

Declare Scope prog_scope.
Delimit Scope prog_scope with prog.
Bind Scope prog_scope with prog.

Notation "x <- p ;; q" := (bind p (fun x => q))
  (at level 61, p at next level, right associativity) : prog_scope.
Notation "p ;; q" := (bind p (fun _ => q))
  (at level 61, right associativity) : prog_scope.

Module os.
Definition getcwd : prog string := trigger Getcwd.
Definition chdir (path : string) : prog unit := trigger (Chdir path).
Definition system (command : string) : prog Z := trigger (System command).
End os.

Definition print (args : list string) : prog unit := trigger (Print args).
Definition input (prompt : string) : prog string := trigger (Input prompt).
Definition import_from (module name : string) : prog unit :=
  trigger (ImportFrom module name).
Definition generate_project : prog Z := trigger GenerateProject.
Definition exit {A : Type} (code : Z) : prog A := Exit code.

(** ** The script *)

Local Open Scope prog_scope.

(** [a or b]: [b] is evaluated only when [a] is false. *)
Definition por (a b : prog bool) : prog bool :=
  x <- a ;; if x then Ret true else b.

(** Lines 5 to 8: show the working directory and leave [scripts]. *)
Definition normalize_directory : prog unit :=
  cwd <- os.getcwd ;;
  print ["-- Current working directory: "; cwd] ;;
  in_scripts <- por (c <- os.getcwd ;; Ret (PyStr.endswith c "scripts"))
                    (c <- os.getcwd ;; Ret (PyStr.endswith c "scripts/")) ;;
  if in_scripts : bool then
    os.chdir ".." ;;
    print ["-- Changed working directory to the parent directory"]
  else Ret tt.

(** Lines 10 to 21: import the generator, generate, build, report. *)
Definition generate_and_build : prog unit :=
  import_from "generate_project" "generate_project" ;;
  generated <- generate_project ;;
  if (generated =? 0)%Z then
    built <- os.system "cmake --build build" ;;
    if (built =? 0)%Z then
      print [PyStr.nl ++ "-- CMake built successfully"] ;;
      input "Press enter to continue..." ;;
      Ret tt
    else
      input "-- ABORTED: Press enter to continue..." ;;
      exit 1
  else
    input "-- ABORTED: Press enter to continue..." ;;
    exit 1.

Definition build_colt : prog unit :=
  normalize_directory ;; generate_and_build.

Local Close Scope prog_scope.

(** ** The process and its surroundings *)

(** What the script cannot decide: the generator, the build tool, the
    user at the keyboard and what the standard streams are attached
    to. The module [generate_project] is not part of the script: its
    function is taken here by its interface, a callable without
    arguments that returns an integer status, which may depend on the
    directory it is called in. *)
Record Env : Type := {
  (** The status [generate_project()] returns, by directory. *)
  generator : string -> Z;
  (** How the build tool ends, by command line and directory. *)
  build_tool : string -> string -> child_outcome;
  (** What a read of standard input at a prompt yields: the line the
      user types, or nothing when standard input is at end of file. *)
  keyboard : option string;
  (** Whether standard input and standard output are both terminals. *)
  on_terminal : bool
}.

(** What a run does to the outside, in order. A read of standard
    input yields a line, or nothing at end of file. *)
Inductive event : Type :=
| Stdout (text : string)
| Stderr (text : string)
| Stdin (line : option string)
| ChangedDir (origin target : string)
| Imported (module name : string)
| Generated (dir : string) (status : Z)
| Spawned (command dir : string) (outcome : child_outcome).

(** Where [input] writes its prompt: on standard error when the
    script runs on a terminal, on standard output otherwise. *)
Definition prompt_on (env : Env) (text : string) : event :=
  if on_terminal env then Stderr text else Stdout text.

(** The exceptions an operation of the script raises. *)
Inductive exception : Type :=
| EOFError.

Record Proc : Type := {
  cwd : string;
  trace : list event
}.

Definition log (s : Proc) (ev : event) : Proc :=
  {| cwd := cwd s; trace := trace s ++ [ev] |}.

(** One operation: its result, or the exception it raises, and the
    process after it. [input] writes its prompt, reads a line and
    raises [EOFError] when there is none. *)
Definition handle (env : Env) {X : Type} (e : effect X) (s : Proc)
  : (X + exception) * Proc :=
  match e in effect T return (T + exception) * Proc with
  | Getcwd => (inl (cwd s), s)
  | Chdir path =>
      let target := Path.resolve (cwd s) path in
      (inl tt,
       {| cwd := target; trace := trace s ++ [ChangedDir (cwd s) target] |})
  | Print args => (inl tt, log s (Stdout (PyStr.join " " args ++ PyStr.nl)))
  | ImportFrom module name => (inl tt, log s (Imported module name))
  | GenerateProject =>
      let status := generator env (cwd s) in
      (inl status, log s (Generated (cwd s) status))
  | System command =>
      let o := build_tool env command (cwd s) in
      (inl (wait_status o), log s (Spawned command (cwd s) o))
  | Input prompt =>
      let s' := log (log s (prompt_on env prompt)) (Stdin (keyboard env)) in
      match keyboard env with
      | Some line => (inl line, s')
      | None => (inr EOFError, s')
      end
  end.

(** How a script ends: at its last line, by [exit], or by an exception
    nothing catches, which the interpreter reports on standard error
    before it exits. *)
Inductive outcome (A : Type) : Type :=
| Returned (a : A)
| SystemExit (code : Z)
| Raised (exc : exception).

Arguments Returned {A} a.
Arguments SystemExit {A} code.
Arguments Raised {A} exc.

Fixpoint run {A : Type} (env : Env) (p : prog A) (s : Proc) : outcome A * Proc :=
  match p with
  | Ret a => (Returned a, s)
  | Exit code => (SystemExit code, s)
  | Vis e k =>
      match handle env e s with
      | (inl x, s') => run env (k x) s'
      | (inr exc, s') => (Raised exc, s')
      end
  end.

(** The exit code of the interpreter: 0 at the end of the script, the
    argument of [exit], 1 after an uncaught exception. *)
Definition exit_code_of {A : Type} (o : outcome A) : Z :=
  match o with
  | Returned _ => 0
  | SystemExit code => code
  | Raised _ => 1
  end.

Definition start (dir : string) : Proc := {| cwd := dir; trace := [] |}.

(** A run of the script started in [dir]. *)
Definition launch (env : Env) (dir : string) : outcome unit * Proc :=
  run env build_colt (start dir).

Definition exit_code (env : Env) (dir : string) : Z :=
  exit_code_of (fst (launch env dir)).

Definition events (env : Env) (dir : string) : list event :=
  trace (snd (launch env dir)).

Definition final_dir (env : Env) (dir : string) : string :=
  cwd (snd (launch env dir)).

(** The working directory once lines 5 to 8 have run. *)
Definition dir_after_step1 (env : Env) (dir : string) : string :=
  cwd (snd (run env normalize_directory (start dir))).

Definition events_of_step1 (env : Env) (dir : string) : list event :=
  trace (snd (run env normalize_directory (start dir))).

(** ** Observations on a trace *)

Definition stdout_of (evs : list event) : list string :=
  flat_map (fun ev => match ev with Stdout text => [text] | _ => [] end) evs.

(** What the calls of the script write on standard error. *)
Definition stderr_of (evs : list event) : list string :=
  flat_map (fun ev => match ev with Stderr text => [text] | _ => [] end) evs.

(** What the script writes, on either stream, in order. *)
Definition written_of (evs : list event) : list string :=
  flat_map (fun ev => match ev with
                      | Stdout text | Stderr text => [text]
                      | _ => []
                      end) evs.

Definition commands_of (evs : list event) : list string :=
  flat_map (fun ev => match ev with Spawned c _ _ => [c] | _ => [] end) evs.

Definition generations_of (evs : list event) : list (string * Z) :=
  flat_map (fun ev => match ev with Generated d g => [(d, g)] | _ => [] end) evs.

Definition spawns_of (evs : list event) : list (string * string * child_outcome) :=
  flat_map (fun ev => match ev with Spawned c d o => [(c, d, o)] | _ => [] end) evs.

Definition is_chdir (ev : event) : bool :=
  match ev with ChangedDir _ _ => true | _ => false end.

(** The events of lines 10 to 21 that reach the generator or the
    build tool. *)
Definition is_generation_or_build (ev : event) : bool :=
  match ev with
  | Imported _ _ | Generated _ _ | Spawned _ _ _ => true
  | _ => false
  end.

(** The trace from its first event satisfying [f] on. *)
Fixpoint from_first (f : event -> bool) (evs : list event) : list event :=
  match evs with
  | [] => []
  | ev :: rest => if f ev then evs else from_first f rest
  end.

(** ** The console protocol *)

Definition cwd_line (dir : string) : string :=
  "-- Current working directory:  " ++ dir ++ PyStr.nl.

Definition changed_line : string :=
  "-- Changed working directory to the parent directory" ++ PyStr.nl.

Definition success_line : string :=
  PyStr.nl ++ "-- CMake built successfully" ++ PyStr.nl.

Definition continue_prompt : string := "Press enter to continue...".

Definition abort_prompt : string := "-- ABORTED: Press enter to continue...".

Definition build_command : string := "cmake --build build".

(** The test of line 6. *)
Definition in_scripts (dir : string) : bool :=
  PyStr.endswith dir "scripts" || PyStr.endswith dir "scripts/".

(** The trace lines 10 to 21 add, by the status of the generator and
    the outcome of the build. *)
Definition tail_events (env : Env) (dir : string) : list event :=
  let g := generator env dir in
  let o := build_tool env build_command dir in
  [Imported "generate_project" "generate_project"; Generated dir g] ++
  (if (g =? 0)%Z then
     Spawned build_command dir o ::
     (if (wait_status o =? 0)%Z
      then [Stdout success_line; prompt_on env continue_prompt;
            Stdin (keyboard env)]
      else [prompt_on env abort_prompt; Stdin (keyboard env)])
   else [prompt_on env abort_prompt; Stdin (keyboard env)]).

(** How a script ends that, after its prompt, would end as [o]. *)
Definition after_prompt (env : Env) (o : outcome unit) : outcome unit :=
  match keyboard env with
  | Some _ => o
  | None => Raised EOFError
  end.

(** How lines 10 to 21 end. *)
Definition tail_outcome (env : Env) (dir : string) : outcome unit :=
  after_prompt env
    (if (generator env dir =? 0)%Z
     then if (wait_status (build_tool env build_command dir) =? 0)%Z
          then Returned tt else SystemExit 1
     else SystemExit 1).

(** How often a line occurs among the lines written. *)
Definition occurrences (x : string) (l : list string) : nat :=
  List.length (filter (String.eqb x) l).

(** The working directory a trace leads to from [dir]. *)
Fixpoint replay (dir : string) (evs : list event) : string :=
  match evs with
  | [] => dir
  | ChangedDir _ target :: rest => replay target rest
  | _ :: rest => replay dir rest
  end.

(** The two ways a run fails. *)
Inductive failure : Type :=
| GenerationFailure
| BuildFailure.

Definition failed (k : failure) (evs : list event) : Prop :=
  match k with
  | GenerationFailure => exists d g, In (Generated d g) evs /\ g <> 0%Z
  | BuildFailure => exists c d o, In (Spawned c d o) evs /\ o <> Exited 0
  end.

(** Surroundings for concrete runs: a generator that returns [g]
    wherever it is called, a build tool that ends as [o], a user who
    presses enter, streams that are not terminals. *)
Definition fixed_env (g : Z) (o : child_outcome) : Env :=
  {| generator := fun _ => g;
     build_tool := fun _ _ => o;
     keyboard := Some "";
     on_terminal := false |}.

(** The same on a terminal. *)
Definition terminal_env (g : Z) (o : child_outcome) : Env :=
  {| generator := fun _ => g;
     build_tool := fun _ _ => o;
     keyboard := Some "";
     on_terminal := true |}.

(** The same with standard input at end of file. *)
Definition eof_env (g : Z) (o : child_outcome) : Env :=
  {| generator := fun _ => g;
     build_tool := fun _ _ => o;
     keyboard := None;
     on_terminal := false |}.

Definition is_stdin (ev : event) : bool :=
  match ev with Stdin _ => true | _ => false end.

Definition is_spawn (ev : event) : bool :=
  match ev with Spawned _ _ _ => true | _ => false end.

(** The same surroundings with another line typed at the prompt. *)
Definition with_keyboard (env : Env) (line : string) : Env :=
  {| generator := generator env;
     build_tool := build_tool env;
     keyboard := Some line;
     on_terminal := on_terminal env |}.

(** * Strings and paths *)

Section StringFacts.

Lemma length_append (s t : string) :
  String.length (s ++ t) = String.length s + String.length t.
Proof. induction s as [|c s IH]; simpl; [reflexivity | now rewrite IH]. Qed.

Lemma append_nil_r (s : string) : s ++ "" = s.
Proof. induction s as [|c s IH]; simpl; [reflexivity | now rewrite IH]. Qed.

Lemma append_assoc (s t u : string) : (s ++ t) ++ u = s ++ t ++ u.
Proof. induction s as [|c s IH]; simpl; [reflexivity | now rewrite IH]. Qed.

Lemma substring_all (s : string) : substring 0 (String.length s) s = s.
Proof. induction s as [|c s IH]; simpl; [reflexivity | now rewrite IH]. Qed.

Lemma substring_skip (pre suf : string) :
  substring (String.length pre) (String.length suf) (pre ++ suf) = suf.
Proof. induction pre as [|c pre IH]; simpl; [apply substring_all | exact IH]. Qed.

Lemma substring_take (pre suf : string) :
  substring 0 (String.length pre) (pre ++ suf) = pre.
Proof.
  induction pre as [|c pre IH]; simpl.
  - now destruct suf.
  - now rewrite IH.
Qed.

Lemma substring_cut (s : string) :
  forall i, i <= String.length s ->
  s = substring 0 i s ++ substring i (String.length s - i) s.
Proof.
  induction s as [|c s IH]; intros i Hi; simpl in *.
  - now destruct i.
  - destruct i as [|i]; simpl.
    + now rewrite substring_all.
    + f_equal. apply IH. lia.
Qed.

Lemma length_substring_le (s : string) :
  forall i n, String.length (substring i n s) <= n.
Proof.
  induction s as [|c s IH]; intros i n; simpl.
  - destruct i, n; simpl; lia.
  - destruct i as [|i].
    + destruct n as [|n]; simpl; [lia | specialize (IH 0 n); lia].
    + apply IH.
Qed.

(** [endswith] decides being a suffix. *)
Lemma endswith_iff (s suffix : string) :
  PyStr.endswith s suffix = true <-> exists pre, s = pre ++ suffix.
Proof.
  unfold PyStr.endswith. rewrite andb_true_iff, Nat.leb_le, String.eqb_eq.
  split.
  - intros [Hle Hsub].
    exists (substring 0 (String.length s - String.length suffix) s).
    pose proof (substring_cut s (String.length s - String.length suffix)) as Hcut.
    replace (String.length s - (String.length s - String.length suffix))
      with (String.length suffix) in Hcut by lia.
    rewrite Hsub in Hcut. apply Hcut. lia.
  - intros [pre ->]. rewrite length_append. split; [lia|].
    replace (String.length pre + String.length suffix - String.length suffix)
      with (String.length pre) by lia.
    apply substring_skip.
Qed.

Lemma endswith_length (s suffix : string) :
  PyStr.endswith s suffix = true -> String.length suffix <= String.length s.
Proof.
  unfold PyStr.endswith. rewrite andb_true_iff, Nat.leb_le. tauto.
Qed.

End StringFacts.

Section PathFacts.

Lemma split_nonempty (c : ascii) (s : string) : PyStr.split c s <> [].
Proof.
  destruct s as [|a s]; simpl; [discriminate|].
  destruct (Ascii.eqb a c); [discriminate|].
  destruct (PyStr.split c s); discriminate.
Qed.

(** A string ends with the last of its pieces; a string of one piece is
    that piece. *)
Lemma split_last (c : ascii) (s : string) :
  exists pre, s = pre ++ last (PyStr.split c s) "" /\
              (tl (PyStr.split c s) = [] -> pre = "").
Proof.
  induction s as [|a s [pre [Hs Hone]]]; simpl.
  - exists "". split; reflexivity.
  - destruct (Ascii.eqb a c).
    + exists (String a pre). pose proof (split_nonempty c s) as Hne.
      destruct (PyStr.split c s) as [|h t]; [contradiction|].
      split; [|discriminate].
      change (String a s = String a (pre ++ last (h :: t) "")).
      now rewrite <- Hs.
    + destruct (PyStr.split c s) as [|h t].
      * rewrite (Hone eq_refl) in Hs. simpl in Hs. subst s.
        exists "". split; reflexivity.
      * destruct t as [|h' t].
        -- exists "". simpl in *. rewrite (Hone eq_refl) in Hs. simpl in Hs.
           split; [now rewrite <- Hs | reflexivity].
        -- exists (String a pre). split; [|discriminate].
           change (String a s = String a (pre ++ last (h :: h' :: t) "")).
           now rewrite <- Hs.
Qed.

(** Stripping removes the separator a path ends with, and nothing
    else. *)
Lemma strip_trailing_sep_cases (p : string) :
  (PyStr.endswith p "/" = false /\ Path.strip_trailing_sep p = p) \/
  (PyStr.endswith p "/" = true /\ p = Path.strip_trailing_sep p ++ "/").
Proof.
  unfold Path.strip_trailing_sep.
  destruct (PyStr.endswith p "/") eqn:E; [right | left; split; reflexivity].
  split; [reflexivity|].
  apply endswith_iff in E. destruct E as [pre ->].
  rewrite length_append. simpl.
  replace (String.length pre + 1 - 1) with (String.length pre) by lia.
  now rewrite substring_take.
Qed.

Lemma length_strip_trailing_sep (p : string) :
  String.length (Path.strip_trailing_sep p) <= String.length p.
Proof.
  destruct (strip_trailing_sep_cases p) as [[_ ->] | [_ H]]; [lia|].
  rewrite H at 2. rewrite length_append. lia.
Qed.

(** A path is its final segment after some prefix, up to the trailing
    separator. *)
Lemma final_segment_suffix (p : string) :
  exists pre, p = pre ++ Path.final_segment p \/
              p = pre ++ Path.final_segment p ++ "/".
Proof.
  unfold Path.final_segment, Path.segments.
  destruct (split_last Path.sep (Path.strip_trailing_sep p)) as [pre [H _]].
  exists pre.
  destruct (strip_trailing_sep_cases p) as [[_ E] | [_ E]].
  - left. now rewrite E in H at 1.
  - right. rewrite E at 1. rewrite H at 1. apply append_assoc.
Qed.

(** A directory named [scripts] passes the test of line 6. *)
Lemma final_segment_scripts_in_scripts (p : string) :
  Path.final_segment p = "scripts" -> in_scripts p = true.
Proof.
  intros H. unfold in_scripts. apply orb_true_iff.
  destruct (final_segment_suffix p) as [pre [E | E]]; rewrite H in E.
  - left. apply endswith_iff. now exists pre.
  - right. apply endswith_iff. now exists pre.
Qed.

(** Dropping the last piece drops at least one character. *)
Lemma length_join_removelast (s : string) :
  String.length (PyStr.join "/" (removelast (PyStr.split Path.sep s)))
  <= String.length s - 1.
Proof.
  unfold PyStr.join.
  induction s as [|a s IH]; simpl; [lia|].
  pose proof (split_nonempty Path.sep s) as Hne.
  destruct (Ascii.eqb a Path.sep).
  - destruct (PyStr.split Path.sep s) as [|h t] eqn:E; [contradiction|].
    change (removelast ("" :: h :: t)) with ("" :: removelast (h :: t)).
    destruct s as [|b s]; [simpl in E; injection E as <- <-; simpl; lia|].
    destruct (removelast (h :: t)) as [|x l]; simpl in *; lia.
  - destruct (PyStr.split Path.sep s) as [|h t] eqn:E; [contradiction|].
    destruct t as [|h' t]; [simpl; lia|].
    change (removelast (String a h :: h' :: t))
      with (String a h :: removelast (h' :: t)).
    change (removelast (h :: h' :: t)) with (h :: removelast (h' :: t)) in IH.
    destruct s as [|b s]; [simpl in E; discriminate|].
    destruct (removelast (h' :: t)) as [|x l]; simpl in *; lia.
Qed.

Lemma length_parent (p : string) :
  2 <= String.length p -> String.length (Path.parent p) < String.length p.
Proof.
  intros Hp. unfold Path.parent, Path.segments.
  pose proof (length_join_removelast (Path.strip_trailing_sep p)) as H.
  pose proof (length_strip_trailing_sep p) as H'.
  destruct (PyStr.join "/" _); simpl in *; lia.
Qed.

(** Leaving a directory that passes the test of line 6 leads
    elsewhere. *)
Lemma parent_of_in_scripts (p : string) :
  in_scripts p = true -> Path.parent p <> p.
Proof.
  unfold in_scripts. rewrite orb_true_iff. intros H E.
  assert (7 <= String.length p) as Hlen
    by (destruct H as [H | H]; apply endswith_length in H; simpl in H; lia).
  pose proof (length_parent p) as Hlt. rewrite E in Hlt. lia.
Qed.

End PathFacts.

(** * Runs *)

Section RunFacts.

Variable env : Env.

(** Running [p] and then [f]: [f] runs on what [p] returns, in the
    process [p] leaves, unless [p] exits. *)
Lemma run_bind {A B : Type} (p : prog A) (f : A -> prog B) (s : Proc) :
  run env (bind p f) s =
  match run env p s with
  | (Returned a, s') => run env (f a) s'
  | (SystemExit code, s') => (SystemExit code, s')
  | (Raised exc, s') => (Raised exc, s')
  end.
Proof.
  revert s. induction p as [a | code | X e k IH]; intros s; simpl; try reflexivity.
  destruct (handle env e s) as [[x | exc] s']; [apply IH | reflexivity].
Qed.

Lemma wait_status_zero (o : child_outcome) :
  wait_status o = 0%Z <-> o = Exited 0.
Proof.
  destruct o as [status | signal]; cbn [wait_status].
  - rewrite Z.shiftl_eq_0_iff by lia. split; [now intros -> | congruence].
  - split; [lia | discriminate].
Qed.

(** Lines 5 to 8 return, having printed the directory and, when the
    test of line 6 holds, moved to the parent and said so. *)
Lemma run_normalize_directory (dir : string) :
  run env normalize_directory (start dir) =
  (Returned tt,
   if in_scripts dir
   then {| cwd := Path.parent dir;
           trace := [Stdout (cwd_line dir);
                     ChangedDir dir (Path.parent dir);
                     Stdout changed_line] |}
   else {| cwd := dir; trace := [Stdout (cwd_line dir)] |}).
Proof.
  unfold in_scripts, normalize_directory, start. simpl.
  destruct (PyStr.endswith dir "scripts"); simpl; [reflexivity|].
  destruct (PyStr.endswith dir "scripts/"); reflexivity.
Qed.

Lemma run_generate_and_build (s : Proc) :
  run env generate_and_build s =
  (tail_outcome env (cwd s),
   {| cwd := cwd s; trace := trace s ++ tail_events env (cwd s) |}).
Proof.
  unfold generate_and_build, tail_outcome, tail_events, after_prompt,
    build_command. simpl.
  destruct (generator env (cwd s) =? 0)%Z; simpl.
  - destruct (wait_status _ =? 0)%Z; simpl; destruct (keyboard env); simpl;
      cbv [log]; simpl; rewrite <- !app_assoc; reflexivity.
  - destruct (keyboard env); simpl; cbv [log]; simpl;
      rewrite <- !app_assoc; reflexivity.
Qed.

Lemma launch_eq (dir : string) :
  launch env dir =
  let s := snd (run env normalize_directory (start dir)) in
  (tail_outcome env (cwd s),
   {| cwd := cwd s; trace := trace s ++ tail_events env (cwd s) |}).
Proof.
  unfold launch, build_colt. rewrite run_bind.
  rewrite run_normalize_directory. simpl. apply run_generate_and_build.
Qed.

End RunFacts.

Local Open Scope list_scope.

Section TraceFacts.

Variable env : Env.

Lemma replay_app (evs1 evs2 : list event) :
  forall dir, replay dir (evs1 ++ evs2) = replay (replay dir evs1) evs2.
Proof.
  induction evs1 as [|ev evs1 IH]; intros dir; simpl; [reflexivity|].
  destruct ev; apply IH.
Qed.

Lemma handle_extends {X : Type} (e : effect X) (s : Proc) :
  exists evs : list event,
    trace (snd (handle env e s)) = (trace s ++ evs)%list /\
    cwd (snd (handle env e s)) = replay (cwd s) evs.
Proof.
  destruct e; simpl; cbv [log]; simpl.
  - exists []. now rewrite app_nil_r.
  - eexists [_]. split; reflexivity.
  - eexists [_]. split; reflexivity.
  - eexists [_]. split; reflexivity.
  - eexists [_]. split; reflexivity.
  - eexists [_]. split; reflexivity.
  - exists [prompt_on env prompt; Stdin (keyboard env)].
    unfold prompt_on.
    destruct (keyboard env), (on_terminal env); simpl;
      rewrite <- app_assoc; split; reflexivity.
Qed.

(** Whatever the script, a run only adds to the trace, and the
    working directory it ends in is the one its [ChangedDir] events
    lead to: no change of directory goes unrecorded. *)
Lemma run_extends {A : Type} (p : prog A) :
  forall s, exists evs : list event,
    trace (snd (run env p s)) = (trace s ++ evs)%list /\
    cwd (snd (run env p s)) = replay (cwd s) evs.
Proof.
  induction p as [a | code | X e k IH]; intros s; simpl.
  - exists []. now rewrite app_nil_r.
  - exists []. now rewrite app_nil_r.
  - destruct (handle_extends e s) as [evs0 [Ht0 Hc0]].
    destruct (handle env e s) as [[x | exc] s']; simpl in Ht0, Hc0.
    + destruct (IH x s') as [evs1 [Ht1 Hc1]].
      exists (evs0 ++ evs1)%list. rewrite Ht1, Hc1, Ht0, Hc0, replay_app.
      now rewrite app_assoc.
    + exists evs0. simpl. split; assumption.
Qed.

Lemma dir_after_step1_eq (dir : string) :
  dir_after_step1 env dir = if in_scripts dir then Path.parent dir else dir.
Proof.
  unfold dir_after_step1. rewrite run_normalize_directory.
  now destruct (in_scripts dir).
Qed.

Lemma events_of_step1_eq (dir : string) :
  events_of_step1 env dir =
  Stdout (cwd_line dir) ::
  (if in_scripts dir
   then [ChangedDir dir (Path.parent dir); Stdout changed_line]
   else []).
Proof.
  unfold events_of_step1. rewrite run_normalize_directory.
  now destruct (in_scripts dir).
Qed.

Lemma events_eq (dir : string) :
  events env dir =
  events_of_step1 env dir ++ tail_events env (dir_after_step1 env dir).
Proof. unfold events. now rewrite launch_eq. Qed.

Lemma exit_code_eq (dir : string) :
  exit_code env dir = exit_code_of (tail_outcome env (dir_after_step1 env dir)).
Proof. unfold exit_code. now rewrite launch_eq. Qed.

Lemma final_dir_eq (dir : string) :
  final_dir env dir = dir_after_step1 env dir.
Proof. unfold final_dir. now rewrite launch_eq. Qed.

End TraceFacts.

(** * What a run calls *)

Section Calls.

Variable env : Env.

Lemma in_generations (evs : list event) (d : string) (g : Z) :
  In (Generated d g) evs -> In (d, g) (generations_of evs).
Proof.
  intros H. unfold generations_of. apply in_flat_map.
  exists (Generated d g). split; [exact H | now left].
Qed.

Lemma in_spawns (evs : list event) (c d : string) (o : child_outcome) :
  In (Spawned c d o) evs -> In (c, d, o) (spawns_of evs).
Proof.
  intros H. unfold spawns_of. apply in_flat_map.
  exists (Spawned c d o). split; [exact H | now left].
Qed.

(** Every run calls the generator once, in the directory lines 5 to 8
    leave. *)
Lemma generations_of_events (dir : string) :
  generations_of (events env dir) =
  [(dir_after_step1 env dir, generator env (dir_after_step1 env dir))].
Proof.
  rewrite events_eq, events_of_step1_eq. unfold tail_events, prompt_on.
  destruct (in_scripts dir), (on_terminal env), (generator env _ =? 0)%Z;
    try destruct (wait_status _ =? 0)%Z; reflexivity.
Qed.

(** The build tool is started once when the generator returns 0, and
    not at all otherwise. *)
Lemma spawns_of_events (dir : string) :
  spawns_of (events env dir) =
  let d := dir_after_step1 env dir in
  if (generator env d =? 0)%Z
  then [(build_command, d, build_tool env build_command d)]
  else [].
Proof.
  rewrite events_eq, events_of_step1_eq. unfold tail_events, prompt_on.
  destruct (in_scripts dir), (on_terminal env), (generator env _ =? 0)%Z;
    try destruct (wait_status _ =? 0)%Z; reflexivity.
Qed.

Lemma commands_of_events (dir : string) :
  commands_of (events env dir) =
  if (generator env (dir_after_step1 env dir) =? 0)%Z
  then [build_command] else [].
Proof.
  rewrite events_eq, events_of_step1_eq. unfold tail_events, prompt_on.
  destruct (in_scripts dir), (on_terminal env), (generator env _ =? 0)%Z;
    try destruct (wait_status _ =? 0)%Z; reflexivity.
Qed.

(** What the generator returned in a run is its status in the
    directory lines 5 to 8 leave. *)
Lemma generated_status (dir d : string) (g : Z) :
  In (Generated d g) (events env dir) ->
  d = dir_after_step1 env dir /\ g = generator env d.
Proof.
  intros H. apply in_generations in H. rewrite generations_of_events in H.
  destruct H as [E | []]. injection E as <- <-. split; reflexivity.
Qed.

Lemma spawned_outcome (dir c d : string) (o : child_outcome) :
  In (Spawned c d o) (events env dir) ->
  generator env d = 0%Z /\ c = build_command /\
  d = dir_after_step1 env dir /\ o = build_tool env c d.
Proof.
  intros H. apply in_spawns in H. rewrite spawns_of_events in H. simpl in H.
  destruct (generator env (dir_after_step1 env dir) =? 0)%Z eqn:E; [|contradiction].
  destruct H as [H | []]. injection H as <- <- <-.
  apply Z.eqb_eq in E. repeat split; assumption || reflexivity.
Qed.

End Calls.

(** A line is not among those written: by cases on the test of line 6,
    comparing the lines. *)
Ltac not_written :=
  match goal with
  | |- context [in_scripts ?dir] =>
      destruct (in_scripts dir); simpl; intuition discriminate
  end.

(** * Directory normalization *)

(** A directory whose final segment is [scripts], with or without a
    trailing separator, is left for its parent. *)
Lemma scripts_directory_left (env : Env) (dir : string) :
  Path.final_segment dir = "scripts" ->
  dir_after_step1 env dir = Path.parent dir.
Proof.
  intros H. rewrite dir_after_step1_eq.
  now rewrite (final_segment_scripts_in_scripts dir H).
Qed.

(** The working directory changes exactly when the path ends in
    [scripts] or [scripts/], whatever precedes these characters. *)
Lemma dir_after_step1_changes (env : Env) (dir : string) :
  dir_after_step1 env dir <> dir <-> in_scripts dir = true.
Proof.
  rewrite dir_after_step1_eq. destruct (in_scripts dir) eqn:E.
  - split; [reflexivity | intros _; now apply parent_of_in_scripts].
  - split; [intros H; now contradiction H | discriminate].
Qed.

(** C1, at the directory [/repo/myscripts]: its final segment is
    [myscripts], not [scripts], yet line 6 holds of it, since the path
    ends in the characters [scripts], and line 7 moves the process to
    [/repo]: the working directory does not stay unchanged. *)
Theorem myscripts_directory_left (env : Env) :
  Path.final_segment "/repo/myscripts" = "myscripts" /\
  Path.final_segment "/repo/myscripts" <> "scripts" /\
  in_scripts "/repo/myscripts" = true /\
  dir_after_step1 env "/repo/myscripts" = "/repo" /\
  dir_after_step1 env "/repo/myscripts" <> "/repo/myscripts".
Proof.
  rewrite dir_after_step1_eq.
  repeat split; try reflexivity; simpl; discriminate.
Qed.

(** * Exit codes and reports *)

(** C2: whatever non-zero integer the call of the generator returns in
    a run, the run starts no build tool and its exit code is 1. *)
Theorem generation_failure_exits_1 (env : Env) (dir d : string) (g : Z) :
  In (Generated d g) (events env dir) ->
  g <> 0%Z ->
  spawns_of (events env dir) = [] /\
  commands_of (events env dir) = [] /\
  exit_code env dir = 1%Z.
Proof.
  intros Hin Hg. apply generated_status in Hin. destruct Hin as [-> ->].
  apply Z.eqb_neq in Hg.
  rewrite spawns_of_events, commands_of_events, exit_code_eq.
  unfold tail_outcome, after_prompt. simpl. rewrite Hg.
  destruct (keyboard env); repeat split.
Qed.

(** C3: when the generator returns 0 and the build tool ends otherwise
    than by exit status 0, the exit code of the run is 1. *)
Theorem build_failure_exits_1
    (env : Env) (dir d c d' : string) (o : child_outcome) :
  In (Generated d 0%Z) (events env dir) ->
  In (Spawned c d' o) (events env dir) ->
  o <> Exited 0 ->
  exit_code env dir = 1%Z.
Proof.
  intros Hgen Hin Ho.
  apply spawned_outcome in Hin. destruct Hin as [Hg [-> [-> ->]]].
  rewrite exit_code_eq. unfold tail_outcome, after_prompt.
  rewrite Hg. simpl.
  destruct (wait_status _ =? 0)%Z eqn:E; [|now destruct (keyboard env)].
  apply Z.eqb_eq, wait_status_zero in E. contradiction.
Qed.

(** C4, as the code has it: when the generator returns 0 and the build
    tool exits with status 0, the run ends by printing the success
    line on standard output, then writing the prompt and reading
    standard input; the success line is written once and no abort
    notice is. The exit code is 0 when the read yields a line; at end
    of file [input] raises [EOFError], which nothing catches, and the
    exit code is 1. *)
Theorem success_exit_code (env : Env) (dir d c d' : string) :
  In (Generated d 0%Z) (events env dir) ->
  In (Spawned c d' (Exited 0)) (events env dir) ->
  exit_code env dir = match keyboard env with Some _ => 0%Z | None => 1%Z end /\
  (exists before,
     events env dir =
     before ++ [Stdout success_line; prompt_on env continue_prompt;
                Stdin (keyboard env)] /\
     ~ In (Stdout success_line) before /\
     ~ In (prompt_on env continue_prompt) before) /\
  ~ In (prompt_on env abort_prompt) (events env dir).
Proof.
  intros Hgen Hin.
  apply spawned_outcome in Hin. destruct Hin as [Hg [-> [-> Ho]]].
  assert ((wait_status (build_tool env build_command (dir_after_step1 env dir))
           =? 0)%Z = true) as Hw
    by (apply Z.eqb_eq, wait_status_zero; now rewrite <- Ho).
  rewrite exit_code_eq, events_eq, events_of_step1_eq.
  unfold tail_outcome, tail_events, after_prompt. rewrite Hg, Hw. simpl.
  split; [now destruct (keyboard env)|]. split.
  - exists (Stdout (cwd_line dir) ::
            (if in_scripts dir
             then [ChangedDir dir (Path.parent dir); Stdout changed_line]
             else []) ++
            [Imported "generate_project" "generate_project";
             Generated (dir_after_step1 env dir) 0%Z;
             Spawned build_command (dir_after_step1 env dir)
               (build_tool env build_command (dir_after_step1 env dir))]).
    unfold prompt_on. split; [|split].
    + destruct (in_scripts dir); reflexivity.
    + not_written.
    + destruct (on_terminal env); not_written.
  - unfold prompt_on. destruct (on_terminal env); not_written.
Qed.

(** C5: a run that fails, in the generation or in the build, ends by
    writing the abort notice as a prompt, reading standard input and
    exiting with code 1; it writes no success line and no continue
    prompt. What it writes is the same for the two failures: on
    standard output the abort notice follows the lines of the first
    step unless the script runs on a terminal, where the notice is on
    standard error. *)
Theorem failure_aborts (env : Env) (dir : string) (k : failure) :
  failed k (events env dir) ->
  exit_code env dir = 1%Z /\
  (exists before,
     events env dir =
     before ++ [prompt_on env abort_prompt; Stdin (keyboard env)] /\
     ~ In (prompt_on env abort_prompt) before) /\
  ~ In (Stdout success_line) (events env dir) /\
  ~ In (Stdout continue_prompt) (events env dir) /\
  ~ In (Stderr continue_prompt) (events env dir) /\
  written_of (events env dir) =
  cwd_line dir :: (if in_scripts dir then [changed_line] else []) ++
  [abort_prompt] /\
  stdout_of (events env dir) =
  cwd_line dir :: (if in_scripts dir then [changed_line] else []) ++
  (if on_terminal env then [] else [abort_prompt]).
Proof.
  intros Hk.
  assert ((generator env (dir_after_step1 env dir) =? 0)%Z = false \/
          ((generator env (dir_after_step1 env dir) =? 0)%Z = true /\
           (wait_status (build_tool env build_command (dir_after_step1 env dir))
            =? 0)%Z = false)) as Hcase.
  { destruct k; simpl in Hk.
    - destruct Hk as [d [g [Hin Hg]]].
      apply generated_status in Hin. destruct Hin as [-> ->].
      left. now apply Z.eqb_neq.
    - destruct Hk as [c [d [o [Hin Ho]]]].
      apply spawned_outcome in Hin. destruct Hin as [Hg [-> [-> ->]]].
      right. split; [now apply Z.eqb_eq|].
      apply Z.eqb_neq. intros E. now apply wait_status_zero in E. }
  rewrite exit_code_eq, events_eq, events_of_step1_eq.
  unfold tail_outcome, tail_events, after_prompt, prompt_on.
  destruct Hcase as [Hg | [Hg Hw]]; rewrite Hg; try rewrite Hw; simpl.
  - split; [now destruct (keyboard env)|].
    split; [|split; [|split; [|split; [|split]]]].
    + exists (Stdout (cwd_line dir) ::
              (if in_scripts dir
               then [ChangedDir dir (Path.parent dir); Stdout changed_line]
               else []) ++
              [Imported "generate_project" "generate_project";
               Generated (dir_after_step1 env dir)
                 (generator env (dir_after_step1 env dir))]).
      destruct (in_scripts dir), (on_terminal env); simpl; split;
        reflexivity || intuition discriminate.
    + destruct (on_terminal env); not_written.
    + destruct (on_terminal env); not_written.
    + destruct (on_terminal env); not_written.
    + destruct (in_scripts dir), (on_terminal env); reflexivity.
    + destruct (in_scripts dir), (on_terminal env); reflexivity.
  - split; [now destruct (keyboard env)|].
    split; [|split; [|split; [|split; [|split]]]].
    + exists (Stdout (cwd_line dir) ::
              (if in_scripts dir
               then [ChangedDir dir (Path.parent dir); Stdout changed_line]
               else []) ++
              [Imported "generate_project" "generate_project";
               Generated (dir_after_step1 env dir)
                 (generator env (dir_after_step1 env dir));
               Spawned build_command (dir_after_step1 env dir)
                 (build_tool env build_command (dir_after_step1 env dir))]).
      destruct (in_scripts dir), (on_terminal env); simpl; split;
        reflexivity || intuition discriminate.
    + destruct (on_terminal env); not_written.
    + destruct (on_terminal env); not_written.
    + destruct (on_terminal env); not_written.
    + destruct (in_scripts dir), (on_terminal env); reflexivity.
    + destruct (in_scripts dir), (on_terminal env); reflexivity.
Qed.

(** * The console *)

Lemma dir_after_step1_eqb (env : Env) (dir : string) :
  String.eqb (dir_after_step1 env dir) dir = negb (in_scripts dir).
Proof.
  destruct (in_scripts dir) eqn:E; simpl.
  - apply String.eqb_neq. now apply dir_after_step1_changes.
  - apply String.eqb_eq. rewrite dir_after_step1_eq. now rewrite E.
Qed.

(** C6, as the code has it: what the script writes, on standard output
    and standard error together, is the line showing the directory,
    the line announcing the change of directory when and only when
    lines 5 to 8 changed it, and then either the success line with the
    continue prompt or the abort prompt: one of the two, never both
    and never neither. The printed lines are on standard output; the
    prompt is on standard output too, unless the script runs on a
    terminal, where [input] writes it on standard error. The report
    of an uncaught [EOFError], which the interpreter prints on
    standard error, is not among the writes of the script. *)
Theorem console_protocol_on_streams (env : Env) (dir : string) :
  let all := written_of (events env dir) in
  let moved := negb (String.eqb (dir_after_step1 env dir) dir) in
  (exists terminal,
     (terminal = [success_line; continue_prompt] \/
      terminal = [abort_prompt]) /\
     all = cwd_line dir :: (if moved then [changed_line] else []) ++ terminal /\
     stdout_of (events env dir) =
     (if on_terminal env
      then cwd_line dir :: (if moved then [changed_line] else []) ++
           removelast terminal
      else all) /\
     stderr_of (events env dir) =
     (if on_terminal env then [last terminal ""%string] else [])) /\
  occurrences success_line all + occurrences abort_prompt all = 1 /\
  occurrences continue_prompt all = occurrences success_line all /\
  occurrences changed_line (stdout_of (events env dir)) =
  (if moved then 1 else 0) /\
  occurrences success_line (stdout_of (events env dir)) =
  occurrences success_line all.
Proof.
  cbv zeta. rewrite dir_after_step1_eqb, negb_involutive.
  rewrite events_eq, events_of_step1_eq.
  unfold tail_events, prompt_on. cbv zeta.
  destruct (in_scripts dir), (on_terminal env), (generator env _ =? 0)%Z;
    try destruct (wait_status _ =? 0)%Z; simpl;
    (split; [eexists; split; [|split; [reflexivity|]]; auto |]);
    repeat split.
Qed.

(** * The working directory *)

(** C7: a run changes the working directory at most once; the change,
    if any, is the one of lines 5 to 8; from the import of the
    generator on there is none, so that the run ends in the directory
    lines 5 to 8 left, which is also where the recorded changes lead
    from the starting directory. *)
Theorem working_directory_changed_at_most_once (env : Env) (dir : string) :
  List.length (filter is_chdir (events env dir)) <= 1 /\
  filter is_chdir (events env dir) = filter is_chdir (events_of_step1 env dir) /\
  filter is_chdir (from_first is_generation_or_build (events env dir)) = [] /\
  final_dir env dir = dir_after_step1 env dir /\
  final_dir env dir = replay dir (events env dir).
Proof.
  rewrite final_dir_eq, events_eq, events_of_step1_eq, dir_after_step1_eq.
  unfold tail_events, prompt_on. cbv zeta.
  destruct (in_scripts dir), (on_terminal env), (generator env _ =? 0)%Z;
    try destruct (wait_status _ =? 0)%Z; simpl;
    repeat split; lia.
Qed.

(** * The build command *)

(** C8: the command lines a run hands to [os.system] are the one
    constant [cmake --build build] when the generator returned 0 and
    none otherwise: the starting directory, the generator, the build
    tool and the user decide at most whether the command runs, never
    what it is. *)
Theorem build_command_is_constant (env : Env) (dir : string) :
  commands_of (events env dir) =
  (if (generator env (dir_after_step1 env dir) =? 0)%Z
   then ["cmake --build build"%string] else []) /\
  Forall (fun c => c = "cmake --build build"%string)
         (commands_of (events env dir)).
Proof.
  rewrite commands_of_events.
  destruct (generator env _ =? 0)%Z; split;
    repeat constructor.
Qed.

(** * Order of the steps *)

(** C9: the first thing a run does to the outside is to print the line
    showing the directory it was started in, whether or not it then
    changes directory. *)
Theorem working_directory_shown_first (env : Env) (dir : string) :
  exists rest,
    events env dir =
    Stdout ("-- Current working directory:  " ++ dir ++ PyStr.nl)%string :: rest.
Proof.
  rewrite events_eq, events_of_step1_eq.
  eexists. reflexivity.
Qed.

(** C10: the generator is imported and then called after the events of
    lines 5 to 8, none of which reaches the generator or the build
    tool; it is called once, in the directory lines 5 to 8 left, and
    that directory is the starting one only when line 6 did not hold
    of it. *)
Theorem generator_runs_in_normalized_directory (env : Env) (dir : string) :
  (exists rest,
     events env dir =
     events_of_step1 env dir ++
     Imported "generate_project" "generate_project" ::
     Generated (dir_after_step1 env dir)
       (generator env (dir_after_step1 env dir)) :: rest) /\
  filter is_generation_or_build (events_of_step1 env dir) = [] /\
  generations_of (events env dir) =
  [(dir_after_step1 env dir, generator env (dir_after_step1 env dir))] /\
  String.eqb (dir_after_step1 env dir) dir = negb (in_scripts dir).
Proof.
  split; [|split; [|split]].
  - rewrite events_eq. unfold tail_events. eexists. reflexivity.
  - rewrite events_of_step1_eq. now destruct (in_scripts dir).
  - apply generations_of_events.
  - apply dir_after_step1_eqb.
Qed.

(** * Concrete runs *)

(** Scenario B: started in [/repo] with a generator that returns 1. *)
Lemma generation_failure_exits_1_witness :
  In (Generated "/repo" 1%Z) (events (fixed_env 1 (Exited 0)) "/repo") /\
  spawns_of (events (fixed_env 1 (Exited 0)) "/repo") = [] /\
  commands_of (events (fixed_env 1 (Exited 0)) "/repo") = [] /\
  exit_code (fixed_env 1 (Exited 0)) "/repo" = 1%Z.
Proof.
  assert (In (Generated "/repo" 1%Z) (events (fixed_env 1 (Exited 0)) "/repo"))
    as Hin by (vm_compute; tauto).
  split; [exact Hin|].
  apply (generation_failure_exits_1 (fixed_env 1 (Exited 0)) "/repo" "/repo" 1);
    [exact Hin | discriminate].
Defined.

(** Scenario C: started in [/repo], the generator returns 0 and the
    build tool exits with status 2. *)
Lemma build_failure_exits_1_witness :
  In (Spawned build_command "/repo" (Exited 2))
     (events (fixed_env 0 (Exited 2)) "/repo") /\
  exit_code (fixed_env 0 (Exited 2)) "/repo" = 1%Z.
Proof.
  assert (In (Spawned build_command "/repo" (Exited 2))
             (events (fixed_env 0 (Exited 2)) "/repo"))
    as Hin by (vm_compute; tauto).
  split; [exact Hin|].
  apply (build_failure_exits_1 (fixed_env 0 (Exited 2)) "/repo" "/repo"
           build_command "/repo" (Exited 2));
    [vm_compute; tauto | exact Hin | discriminate].
Defined.

(** Scenario A: started in [/repo/scripts], the generator returns 0,
    the build tool exits with status 0 and the user presses enter. *)
Lemma success_exit_code_witness :
  final_dir (fixed_env 0 (Exited 0)) "/repo/scripts" = "/repo"%string /\
  exit_code (fixed_env 0 (Exited 0)) "/repo/scripts" = 0%Z /\
  (exists before,
     events (fixed_env 0 (Exited 0)) "/repo/scripts" =
     before ++ [Stdout success_line; Stdout continue_prompt; Stdin (Some ""%string)] /\
     ~ In (Stdout success_line) before /\
     ~ In (Stdout continue_prompt) before) /\
  ~ In (Stdout abort_prompt) (events (fixed_env 0 (Exited 0)) "/repo/scripts").
Proof.
  split; [reflexivity|].
  apply (success_exit_code (fixed_env 0 (Exited 0)) "/repo/scripts" "/repo"
           build_command "/repo"); vm_compute; tauto.
Defined.

(** The same run with standard input at end of file: the generator
    returned 0, the build tool exited with status 0, the success line
    is printed, and the exit code is 1, not 0. *)
Lemma success_at_eof_exits_1 :
  In (Generated "/repo" 0%Z) (events (eof_env 0 (Exited 0)) "/repo/scripts") /\
  In (Spawned build_command "/repo" (Exited 0))
     (events (eof_env 0 (Exited 0)) "/repo/scripts") /\
  In (Stdout success_line) (events (eof_env 0 (Exited 0)) "/repo/scripts") /\
  fst (launch (eof_env 0 (Exited 0)) "/repo/scripts") = Raised EOFError /\
  exit_code (eof_env 0 (Exited 0)) "/repo/scripts" = 1%Z /\
  exit_code (eof_env 0 (Exited 0)) "/repo/scripts" <> 0%Z.
Proof.
  repeat split; try (vm_compute; tauto); vm_compute; discriminate.
Qed.

(** Scenario B on a terminal: standard output holds the line showing
    the directory and nothing else; the abort notice is on standard
    error, so that neither terminal message is on standard output. *)
Lemma console_protocol_fails_on_terminal :
  stdout_of (events (terminal_env 1 (Exited 0)) "/repo") = [cwd_line "/repo"] /\
  stderr_of (events (terminal_env 1 (Exited 0)) "/repo") = [abort_prompt] /\
  occurrences success_line (stdout_of (events (terminal_env 1 (Exited 0)) "/repo")) +
  occurrences abort_prompt (stdout_of (events (terminal_env 1 (Exited 0)) "/repo"))
  <> 1.
Proof.
  repeat split; vm_compute; discriminate.
Qed.

(** The two failures, started in [/repo/scripts]. *)
Lemma failure_aborts_witness :
  failed GenerationFailure (events (fixed_env 3 (Exited 0)) "/repo/scripts") /\
  failed BuildFailure (events (fixed_env 0 (Signaled 9)) "/repo/scripts") /\
  exit_code (fixed_env 3 (Exited 0)) "/repo/scripts" = 1%Z /\
  exit_code (fixed_env 0 (Signaled 9)) "/repo/scripts" = 1%Z /\
  stdout_of (events (fixed_env 3 (Exited 0)) "/repo/scripts") =
  stdout_of (events (fixed_env 0 (Signaled 9)) "/repo/scripts").
Proof.
  assert (failed GenerationFailure
            (events (fixed_env 3 (Exited 0)) "/repo/scripts")) as Hg.
  { exists "/repo"%string, 3%Z. split; [vm_compute; tauto | discriminate]. }
  assert (failed BuildFailure
            (events (fixed_env 0 (Signaled 9)) "/repo/scripts")) as Hb.
  { exists build_command, "/repo"%string, (Signaled 9).
    split; [vm_compute; tauto | discriminate]. }
  split; [exact Hg|]. split; [exact Hb|].
  destruct (failure_aborts _ _ _ Hg) as [Hcg [_ [_ [_ [_ [_ Hog]]]]]].
  destruct (failure_aborts _ _ _ Hb) as [Hcb [_ [_ [_ [_ [_ Hob]]]]]].
  split; [exact Hcg|]. split; [exact Hcb|].
  rewrite Hog, Hob. reflexivity.
Defined.

(** * Paths below a root *)

Section SubdirFacts.

Lemma substring_app_skip (pre suf : string) (i m : nat) :
  substring (String.length pre + i) m (pre ++ suf)%string = substring i m suf.
Proof. induction pre as [|c pre IH]; simpl; [reflexivity | exact IH]. Qed.

(** Splitting at a separator splits the pieces. *)
Lemma split_app_sep (a b : string) :
  PyStr.split Path.sep (a ++ String Path.sep b)%string =
  PyStr.split Path.sep a ++ PyStr.split Path.sep b.
Proof.
  induction a as [|c a IH]; simpl.
  - reflexivity.
  - rewrite IH. destruct (Ascii.eqb c Path.sep); [reflexivity|].
    pose proof (split_nonempty Path.sep a) as Hne.
    destruct (PyStr.split Path.sep a) as [|h t]; [contradiction | reflexivity].
Qed.

(** Joining the pieces of a path gives the path back. *)
Lemma join_split (s : string) :
  PyStr.join "/" (PyStr.split Path.sep s) = s.
Proof.
  unfold PyStr.join. induction s as [|c s IH]; simpl; [reflexivity|].
  pose proof (split_nonempty Path.sep s) as Hne.
  destruct (Ascii.eqb c Path.sep) eqn:E.
  - apply Ascii.eqb_eq in E. subst c.
    destruct (PyStr.split Path.sep s) as [|h t]; [contradiction|].
    simpl in *. now rewrite IH.
  - destruct (PyStr.split Path.sep s) as [|h t]; [contradiction|].
    destruct t as [|h' t]; simpl in *; now rewrite <- IH.
Qed.

Lemma endswith_sep_scripts (root : string) :
  PyStr.endswith (root ++ "/scripts") "/" = false.
Proof.
  unfold PyStr.endswith. rewrite length_append. simpl String.length.
  replace (String.length root + 8 - 1) with (String.length root + 7) by lia.
  rewrite substring_app_skip. simpl. apply andb_false_r.
Qed.

(** The parent of [root/scripts] is [root]. *)
Lemma parent_scripts_subdir (root : string) :
  root <> ""%string -> Path.parent (root ++ "/scripts") = root.
Proof.
  intros Hroot. unfold Path.parent, Path.segments, Path.strip_trailing_sep.
  rewrite endswith_sep_scripts.
  change (root ++ "/scripts")%string with (root ++ String Path.sep "scripts")%string.
  rewrite split_app_sep.
  change (PyStr.split Path.sep "scripts") with ["scripts"%string].
  rewrite removelast_last, join_split.
  destruct root; [contradiction | reflexivity].
Qed.

Lemma strip_scripts_subdir_sep (root : string) :
  Path.strip_trailing_sep (root ++ "/scripts/") =
  Path.strip_trailing_sep (root ++ "/scripts").
Proof.
  unfold Path.strip_trailing_sep.
  assert (root ++ "/scripts/" = (root ++ "/scripts") ++ "/")%string as E
    by (now rewrite append_assoc).
  assert (PyStr.endswith (root ++ "/scripts/") "/" = true) as ->
    by (apply endswith_iff; now exists (root ++ "/scripts")%string).
  rewrite endswith_sep_scripts, E, length_append. simpl String.length.
  replace (String.length (root ++ "/scripts") + 1 - 1)
    with (String.length (root ++ "/scripts")) by lia.
  apply substring_take.
Qed.

(** A trailing separator does not change the parent. *)
Lemma parent_scripts_subdir_sep (root : string) :
  root <> ""%string -> Path.parent (root ++ "/scripts/") = root.
Proof.
  intros Hroot. rewrite <- (parent_scripts_subdir root Hroot) at 2.
  unfold Path.parent, Path.segments.
  now rewrite strip_scripts_subdir_sep.
Qed.

Lemma in_scripts_subdir (root : string) :
  in_scripts (root ++ "/scripts") = true /\
  in_scripts (root ++ "/scripts/") = true.
Proof.
  unfold in_scripts. split; apply orb_true_iff; [left | right];
    apply endswith_iff.
  - exists (root ++ "/")%string. now rewrite append_assoc.
  - exists (root ++ "/")%string. now rewrite append_assoc.
Qed.

End SubdirFacts.

(** * Further properties of a run *)

(** The exit code is 0 or 1, and it is 0 exactly when the generator
    returned 0, the build tool, started in the same directory, exited
    with status 0, and the read at the prompt yielded a line. *)
Theorem exit_code_zero_iff_both_succeed (env : Env) (dir : string) :
  let d := dir_after_step1 env dir in
  (exit_code env dir = 0%Z \/ exit_code env dir = 1%Z) /\
  (exit_code env dir = 0%Z <->
   In (Generated d 0%Z) (events env dir) /\
   In (Spawned build_command d (Exited 0)) (events env dir) /\
   keyboard env <> None).
Proof.
  cbv zeta. rewrite exit_code_eq. unfold tail_outcome, after_prompt.
  destruct (generator env _ =? 0)%Z eqn:Eg;
    [destruct (wait_status _ =? 0)%Z eqn:Ew|]; simpl.
  - apply Z.eqb_eq in Eg. apply Z.eqb_eq, wait_status_zero in Ew.
    assert (In (Generated (dir_after_step1 env dir) 0%Z) (events env dir) /\
            In (Spawned build_command (dir_after_step1 env dir) (Exited 0))
               (events env dir)) as Hin.
    { rewrite events_eq. unfold tail_events. rewrite Eg, Ew. simpl.
      split; apply in_or_app; right; simpl; auto. }
    destruct (keyboard env) as [line|]; simpl.
    + split; [now left|]. split; [intros _ | reflexivity].
      repeat split; try apply Hin. discriminate.
    + split; [now right|]. split; [discriminate|].
      intros [_ [_ H]]. now contradiction H.
  - assert (exit_code_of
              (match keyboard env with
               | Some _ => SystemExit 1
               | None => Raised EOFError
               end : outcome unit) = 1%Z) as ->
      by now destruct (keyboard env).
    split; [now right|]. split; [discriminate|].
    intros [_ [Hin _]]. apply spawned_outcome in Hin.
    destruct Hin as [_ [_ [_ Ho]]]. rewrite <- Ho in Ew. discriminate.
  - assert (exit_code_of
              (match keyboard env with
               | Some _ => SystemExit 1
               | None => Raised EOFError
               end : outcome unit) = 1%Z) as ->
      by now destruct (keyboard env).
    split; [now right|]. split; [discriminate|].
    intros [Hin _]. apply generated_status in Hin.
    destruct Hin as [_ Hg]. rewrite <- Hg in Eg. discriminate.
Qed.

(** What is written agrees with the exit code: a run that exits with 0
    has printed the success line on standard output; a run that writes
    the abort notice, on either stream, exits with 1; the success line
    is written exactly in the runs that write no abort notice; and a
    run that exits with 1 without an abort notice found standard input
    at end of file. *)
Theorem console_agrees_with_exit_code (env : Env) (dir : string) :
  (exit_code env dir = 0%Z -> In success_line (stdout_of (events env dir))) /\
  (In abort_prompt (written_of (events env dir)) -> exit_code env dir = 1%Z) /\
  (In success_line (stdout_of (events env dir)) <->
   ~ In abort_prompt (written_of (events env dir))) /\
  (exit_code env dir = 1%Z ->
   In abort_prompt (written_of (events env dir)) \/ keyboard env = None).
Proof.
  rewrite exit_code_eq, events_eq, events_of_step1_eq.
  unfold tail_outcome, tail_events, after_prompt, prompt_on. cbv zeta.
  destruct (in_scripts dir), (on_terminal env), (keyboard env),
    (generator env _ =? 0)%Z;
    try destruct (wait_status _ =? 0)%Z; simpl;
    intuition discriminate.
Qed.

(** The line the user types decides nothing: whatever two lines are
    typed, the runs have the same exit code, end in the same directory
    and have the same trace up to the line read. *)
Theorem typed_line_is_ignored (env : Env) (dir line line' : string) :
  exit_code (with_keyboard env line) dir =
  exit_code (with_keyboard env line') dir /\
  final_dir (with_keyboard env line) dir =
  final_dir (with_keyboard env line') dir /\
  filter (fun ev => negb (is_stdin ev)) (events (with_keyboard env line) dir) =
  filter (fun ev => negb (is_stdin ev)) (events (with_keyboard env line') dir).
Proof.
  rewrite !exit_code_eq, !final_dir_eq, !events_eq, !events_of_step1_eq,
    !dir_after_step1_eq.
  unfold tail_outcome, tail_events, after_prompt, prompt_on. cbv zeta.
  simpl generator. simpl build_tool. simpl on_terminal. simpl keyboard.
  destruct (in_scripts dir), (on_terminal env), (generator env _ =? 0)%Z;
    try destruct (wait_status _ =? 0)%Z; repeat split.
Qed.

(** Every run reads standard input exactly once, as the last thing it
    does, right after writing one of the two prompts. *)
Theorem run_blocks_once_at_end (env : Env) (dir : string) :
  let evs := events env dir in
  List.length (filter is_stdin evs) = 1 /\
  last evs (Stdout "") = Stdin (keyboard env) /\
  (last (removelast evs) (Stdin None) = prompt_on env continue_prompt \/
   last (removelast evs) (Stdin None) = prompt_on env abort_prompt).
Proof.
  cbv zeta. rewrite events_eq, events_of_step1_eq.
  unfold tail_events, prompt_on. cbv zeta.
  destruct (in_scripts dir), (on_terminal env), (generator env _ =? 0)%Z;
    try destruct (wait_status _ =? 0)%Z; simpl; auto.
Qed.

(** A run that starts the build tool starts it once, in the directory
    where the generator returned 0, which is the directory the run
    ends in; the generator is not called once the build has started. *)
Theorem build_runs_where_generator_ran
    (env : Env) (dir c d : string) (o : child_outcome) :
  In (Spawned c d o) (events env dir) ->
  spawns_of (events env dir) = [(c, d, o)] /\
  In (Generated d 0%Z) (events env dir) /\
  d = final_dir env dir /\
  generations_of (from_first is_spawn (events env dir)) = [].
Proof.
  intros Hin. apply spawned_outcome in Hin.
  destruct Hin as [Hg [-> [-> ->]]].
  rewrite spawns_of_events, final_dir_eq, events_eq, events_of_step1_eq.
  unfold tail_events, prompt_on. cbv zeta. rewrite Hg. simpl.
  split; [reflexivity|]. split; [|split; [reflexivity|]].
  - destruct (in_scripts dir); simpl; auto 6.
  - destruct (in_scripts dir), (on_terminal env), (wait_status _ =? 0)%Z;
      reflexivity.
Qed.

(** Lines 5 to 8 change the working directory exactly when the path,
    as a string, ends in [scripts] or in [scripts/]. *)
Theorem normalization_changes_iff_suffix (env : Env) (dir : string) :
  dir_after_step1 env dir <> dir <->
  exists pre, dir = (pre ++ "scripts")%string \/ dir = (pre ++ "scripts/")%string.
Proof.
  rewrite dir_after_step1_changes. unfold in_scripts.
  rewrite orb_true_iff, !endswith_iff.
  split.
  - intros [[pre H] | [pre H]]; exists pre; auto.
  - intros [pre [H | H]]; [left | right]; now exists pre.
Qed.

(** Started in [root/scripts], with or without a trailing separator,
    the script does what it does started in [root], when [root] itself
    does not pass the test of line 6: both runs end in [root], call the
    generator and the build tool alike and exit with the same code;
    the run from [scripts] writes its own first line and the line
    announcing the change, and then what the other writes. *)
Theorem launch_from_scripts_as_from_root (env : Env) (root sub : string) :
  root <> ""%string ->
  in_scripts root = false ->
  sub = (root ++ "/scripts")%string \/ sub = (root ++ "/scripts/")%string ->
  final_dir env sub = root /\
  final_dir env root = root /\
  exit_code env sub = exit_code env root /\
  generations_of (events env sub) = generations_of (events env root) /\
  spawns_of (events env sub) = spawns_of (events env root) /\
  stdout_of (events env sub) =
  cwd_line sub :: changed_line :: tl (stdout_of (events env root)).
Proof.
  intros Hroot Hout Hsub.
  assert (dir_after_step1 env sub = root) as Es.
  { rewrite dir_after_step1_eq.
    destruct (in_scripts_subdir root) as [H1 H2].
    destruct Hsub as [-> | ->].
    - rewrite H1. now apply parent_scripts_subdir.
    - rewrite H2. now apply parent_scripts_subdir_sep. }
  assert (dir_after_step1 env root = root) as Er
    by (rewrite dir_after_step1_eq; now rewrite Hout).
  assert (in_scripts sub = true) as Hin
    by (destruct (in_scripts_subdir root); destruct Hsub as [-> | ->]; assumption).
  rewrite !final_dir_eq, !exit_code_eq, !generations_of_events,
    !spawns_of_events, !events_eq, !events_of_step1_eq.
  cbv zeta. rewrite Es, Er, Hin, Hout.
  repeat split.
Qed.

(** The script goes up one level only: started in
    [root/scripts/scripts] it calls the generator in [root/scripts], a
    directory that passes the test of line 6 again. *)
Theorem only_one_level_left (env : Env) (root : string) :
  dir_after_step1 env (root ++ "/scripts/scripts") = (root ++ "/scripts")%string /\
  in_scripts (dir_after_step1 env (root ++ "/scripts/scripts")) = true /\
  generations_of (events env (root ++ "/scripts/scripts")) =
  [((root ++ "/scripts")%string, generator env (root ++ "/scripts")%string)].
Proof.
  assert (root ++ "/scripts/scripts" = (root ++ "/scripts") ++ "/scripts")%string
    as E by (now rewrite append_assoc).
  assert (dir_after_step1 env (root ++ "/scripts/scripts")
          = (root ++ "/scripts")%string) as Ed.
  { rewrite dir_after_step1_eq, E.
    destruct (in_scripts_subdir (root ++ "/scripts")) as [-> _].
    apply parent_scripts_subdir. now destruct root. }
  rewrite generations_of_events, Ed.
  destruct (in_scripts_subdir root) as [H _].
  repeat split. exact H.
Qed.

(** * Further concrete runs *)

Lemma scripts_directory_left_witness :
  Path.final_segment "/repo/scripts/" = "scripts"%string /\
  dir_after_step1 (fixed_env 0 (Exited 0)) "/repo/scripts/" = "/repo"%string.
Proof.
  split; [reflexivity|].
  apply (scripts_directory_left (fixed_env 0 (Exited 0)) "/repo/scripts/").
  reflexivity.
Defined.

Lemma build_runs_where_generator_ran_witness :
  spawns_of (events (fixed_env 0 (Exited 2)) "/repo/scripts") =
  [(build_command, "/repo"%string, Exited 2)] /\
  In (Generated "/repo" 0%Z) (events (fixed_env 0 (Exited 2)) "/repo/scripts") /\
  "/repo"%string = final_dir (fixed_env 0 (Exited 2)) "/repo/scripts" /\
  generations_of
    (from_first is_spawn (events (fixed_env 0 (Exited 2)) "/repo/scripts")) = [].
Proof.
  apply (build_runs_where_generator_ran (fixed_env 0 (Exited 2))
           "/repo/scripts" build_command "/repo" (Exited 2)).
  vm_compute; tauto.
Defined.

Lemma launch_from_scripts_as_from_root_witness :
  final_dir (fixed_env 0 (Exited 0)) "/repo/scripts/" = "/repo"%string /\
  final_dir (fixed_env 0 (Exited 0)) "/repo" = "/repo"%string /\
  exit_code (fixed_env 0 (Exited 0)) "/repo/scripts/" =
  exit_code (fixed_env 0 (Exited 0)) "/repo" /\
  generations_of (events (fixed_env 0 (Exited 0)) "/repo/scripts/") =
  generations_of (events (fixed_env 0 (Exited 0)) "/repo") /\
  spawns_of (events (fixed_env 0 (Exited 0)) "/repo/scripts/") =
  spawns_of (events (fixed_env 0 (Exited 0)) "/repo") /\
  stdout_of (events (fixed_env 0 (Exited 0)) "/repo/scripts/") =
  cwd_line "/repo/scripts/" :: changed_line ::
  tl (stdout_of (events (fixed_env 0 (Exited 0)) "/repo")).
Proof.
  apply (launch_from_scripts_as_from_root (fixed_env 0 (Exited 0))
           "/repo" "/repo/scripts/").
  - discriminate.
  - reflexivity.
  - right. reflexivity.
Defined.
